(** * A shallow embedding of the request orchestration layer of mirakl_lib

    Sources: [mirakl_lib/client.py], [mirakl_lib/shipping.py],
    [mirakl_lib/offer.py], [mirakl_lib/public_input.py].

    Python functions become Rocq functions.  A call that may raise returns a
    [ret A]: either [Return a] or [Raise e] for the exception [e].  Answers of
    the marketplace server (and of any other callee passed in by the caller)
    are parameters of the definitions.  Observable effects (calls, sleeps,
    page requests) are recorded in explicit traces. *)

From Stdlib Require Import ZArith List String Ascii Bool Lia.
From Stdlib Require Import PrimFloat FloatOps SpecFloat Uint63 DecimalString.
Import ListNotations.
Set Warnings "-inexact-float".

Open Scope Z_scope.

(** ** Python exceptions and results *)

(** The value of a [Retry-After] header as [int()] reads it: a string that
    [int()] parses to the integer [secs], or one that it rejects with a
    [ValueError] (an HTTP date, for instance). *)
Inductive retry_after_value : Type :=
| RetryAfterInt (secs : Z)
| RetryAfterNotInt.

(** The exceptions that the modelled code raises or lets through.
    [HTTPError status retry_after] is [requests.exceptions.HTTPError] raised by
    [response.raise_for_status()]; it carries the status code of the response
    and its [Retry-After] header, if present. *)
Inductive exc : Type :=
| HTTPError (status : Z) (retry_after : option retry_after_value)
| MaxRetriesExceeded                 (* Exception("Max retries exceeded") *)
| CarrierNotFound                    (* shipping.CarrierNotFound *)
| ValueError (msg : string)
| TypeError
| JSONDecodeError
| AttributeError (name : string)
| ValidationError (field : string)   (* pydantic: missing required field *)
| NotImplementedError
| OverflowError
| Unreachable (msg : string).        (* Exception("This code should be unreachable...") *)

(** The outcome of a Python call: a returned value or a raised exception. *)
Inductive ret (A : Type) : Type :=
| Return (a : A)
| Raise (e : exc).
Arguments Return {A} a.
Arguments Raise {A} e.

(** A failure that [retry_wrapper] retries: an [HTTPError] whose response has
    status 429. *)
Definition is_rate_limited (e : exc) : bool :=
  match e with
  | HTTPError status _ => Z.eqb status 429
  | _ => false
  end.

(** ** [retry_wrapper] (client.py, lines 68-89) *)
Module RetryWrapper.

(** The observable effects of the wrapper: one invocation of the wrapped
    function, or one [time.sleep(secs)]. *)
Inductive event : Type :=
| Call
| Sleep (secs : Z).

Definition max_retries : nat := 10.

(** [int(e.response.headers.get("Retry-After", 2))] *)
Definition retry_after_secs (header : option retry_after_value) : ret Z :=
  match header with
  | Some (RetryAfterInt secs) => Return secs
  | Some RetryAfterNotInt => Raise (ValueError "invalid literal for int() with base 10")
  | None => Return 2
  end.

(** The largest number of seconds [time.sleep] accepts: its argument is
    converted to a signed 64-bit count of nanoseconds. *)
Definition sleep_limit : Z := 9223372036.

(** [time.sleep(secs)] for an [int] [secs], up to the sleep itself:
    [OverflowError] when [secs] nanoseconds do not fit in 64 bits, and
    [ValueError] for a negative duration. *)
Definition time_sleep (secs : Z) : ret unit :=
  if (secs <? - sleep_limit) || (sleep_limit <? secs) then Raise OverflowError
  else if secs <? 0 then Raise (ValueError "sleep length must be non-negative")
  else Return tt.

(** A header for which [int()] and [time.sleep] succeed, sleeping [secs]
    seconds. *)
Definition valid_retry_after (header : option retry_after_value) (secs : Z) : Prop :=
  retry_after_secs header = Return secs /\ 0 <= secs <= sleep_limit.

Section Wrapper.
Context {A : Type}.

(** [request_func n] is what the [n]-th invocation (counted from 0) of
    [request_func(instance, *args, **kwargs)] does; the arguments are the
    same at every invocation, only the server's answers differ. *)
Variable request_func : nat -> ret A.

(** The [while retry_count < max_retries] loop.  [Return rc] means the loop
    was left (by [break] or by its guard) with [retry_count = rc];
    [Raise e] means [raise e] inside the loop.  The loop runs at most
    [max_retries] times, since [retry_count] grows by one on every
    iteration that does not leave it, so [fuel = max_retries] is enough;
    fuel runs out only where the guard is false. *)
Fixpoint retry_loop (fuel retry_count : nat) (trace : list event)
  : ret nat * list event :=
  match fuel with
  | O => (Return retry_count, trace)
  | S fuel' =>
      if Nat.ltb retry_count max_retries then
        let trace := trace ++ [Call] in
        match request_func retry_count with
        | Return _ => (Return retry_count, trace)
        | Raise e =>
            if is_rate_limited e then
              match e with
              | HTTPError _ header =>
                  match retry_after_secs header with
                  | Raise e' => (Raise e', trace)
                  | Return retry_after =>
                      match time_sleep retry_after with
                      | Raise e' => (Raise e', trace)
                      | Return _ =>
                          retry_loop fuel' (S retry_count)
                            (trace ++ [Sleep retry_after])
                      end
                  end
              | _ => (Raise e, trace)
              end
            else (Raise e, trace)
        end
      else (Return retry_count, trace)
  end.

(** [wrapper(instance, *args, **kwargs)].  The value returned by
    [request_func] is not kept: the wrapper ends without a [return]
    statement, so it returns [None], modelled as [Return None]; a value
    [Return (Some a)] would be the wrapped function's own result. *)
Definition retry_wrapper : ret (option A) * list event :=
  let (r, trace) := retry_loop max_retries 0 [] in
  match r with
  | Raise e => (Raise e, trace)
  | Return retry_count =>
      if Nat.leb max_retries retry_count
      then (Raise MaxRetriesExceeded, trace)
      else (Return None, trace)
  end.

End Wrapper.

(** The trace of [n] rate-limited attempts that sleep [secs i] seconds:
    each is a call followed by its sleep. *)
Definition backoff_trace (secs : nat -> Z) (start n : nat)
  : list event :=
  flat_map (fun i => [Call; Sleep (secs i)]) (seq start n).

End RetryWrapper.

(** ** A writer monad with exceptions

    The client methods raise exceptions and have observable effects (calls to
    pluggable functions, HTTP requests).  [M E A] threads the list of effects
    of type [E] performed so far. *)
Module PyM.

Definition M (E A : Type) : Type := list E -> ret A * list E.

Definition pure {E A : Type} (a : A) : M E A := fun tr => (Return a, tr).

Definition raise {E A : Type} (e : exc) : M E A := fun tr => (Raise e, tr).

Definition emit {E : Type} (ev : E) : M E unit := fun tr => (Return tt, tr ++ [ev]).

(** Lift the outcome of a pure callee. *)
Definition lift {E A : Type} (r : ret A) : M E A := fun tr => (r, tr).

Definition bind {E A B : Type} (m : M E A) (k : A -> M E B) : M E B :=
  fun tr =>
    match m tr with
    | (Return a, tr') => k a tr'
    | (Raise e, tr') => (Raise e, tr')
    end.

(** [m] only appends effects to the trace it is given. *)
Definition extends {E A : Type} (m : M E A) : Prop :=
  forall tr, exists ext, snd (m tr) = tr ++ ext.

(** Run from an empty trace. *)
Definition run {E A : Type} (m : M E A) : ret A * list E := m [].

Module Notations.
Notation "x <- m ;; k" := (bind m (fun x => k))
  (at level 61, m at next level, right associativity).
Notation "m ;;; k" := (bind m (fun _ => k))
  (at level 61, right associativity).
End Notations.

End PyM.
Import PyM.Notations.

(** ** Responses of the marketplace server ([requests.Response]) *)

(** The body of a response as read by [json.loads(response.content)]:
    not JSON at all, JSON that is not an object, or an object whose
    ["message"] entry is a string ([Some]) or absent or not a string
    ([None]; [re.search] raises [TypeError] on it either way). *)
Inductive response_body : Type :=
| BodyNotJson
| BodyJsonNonObject
| BodyJsonObject (message : option string).

Record response : Type := mk_response {
  status_code : Z;
  retry_after_header : option retry_after_value;
  body : response_body
}.

(** [response.ok] of [requests]: false exactly when [raise_for_status] raises,
    i.e. for a 4xx or 5xx status. *)
Definition response_ok (r : response) : bool :=
  negb ((400 <=? status_code r) && (status_code r <? 600)).

(** [response.raise_for_status()]. *)
Definition raise_for_status (r : response) : ret unit :=
  if response_ok r then Return tt
  else Raise (HTTPError (status_code r) (retry_after_header r)).

(** [str(order_id)] for an [order_id : str | int]. *)
Inductive order_id_t : Type :=
| OrderIdStr (s : string)
| OrderIdInt (z : Z).

Definition py_str_order_id (o : order_id_t) : string :=
  match o with
  | OrderIdStr s => s
  | OrderIdInt z => DecimalString.NilZero.string_of_int (Z.to_int z)
  end.

(** ** shipping.py *)
Module Shipping.

(** [class ShippingCarrier(Enum)] *)
Inductive ShippingCarrier : Type := UPS | USPS | FEDEX | DHL | CUSTOM.

Definition carrier_eqb (a b : ShippingCarrier) : bool :=
  match a, b with
  | UPS, UPS | USPS, USPS | FEDEX, FEDEX | DHL, DHL | CUSTOM, CUSTOM => true
  | _, _ => false
  end.

(** [carrier.value] *)
Definition carrier_value (c : ShippingCarrier) : string :=
  match c with
  | UPS => "ups"
  | USPS => "usps"
  | FEDEX => "fedex"
  | DHL => "dhl"
  | CUSTOM => "custom"
  end.

(** [class OR23RequestBody(BaseModel)] *)
Record OR23RequestBody : Type := mk_OR23 {
  carrier_code : option string;
  carrier_name : option string;
  carrier_url : option string;
  tracking_number : string
}.

Definition is_None {A : Type} (o : option A) : bool :=
  match o with None => true | Some _ => false end.

Section Validation.
(** [validators.url]: true when its argument is a syntactically valid
    URL. *)
Variable url_valid : string -> bool.

(** [OR23RequestBody.validate_for_mirakl] (lines 39-52).  Python parses
    [a and b or c] as [(a and b) or c]. *)
Definition validate_for_mirakl (self : OR23RequestBody) : ret OR23RequestBody :=
  if (is_None (carrier_code self) && is_None (carrier_name self))
     || is_None (carrier_url self)
  then Raise (ValueError
         "If carrier code is not provided, the BOTH carrier name and carrier url must be provided")
  else if is_None (carrier_code self) then
    match carrier_url self with
    | Some u => if url_valid u then Return self
                else Raise (ValueError "Invalid carrier URL")
    | None => Return self (* excluded by the first test *)
    end
  else Return self.
End Validation.

(** A checker of absolute http(s) URLs standing for [validators.url] on
    concrete inputs: a scheme ["http://"] or ["https://"] followed by a
    non-empty host part without spaces. *)
Definition validators_url (u : string) : bool :=
  let rest_ok (r : string) :=
    negb (String.eqb r EmptyString) &&
    match String.index 0 " " r with None => true | Some _ => false end in
  if String.prefix "https://" u then rest_ok (String.substring 8 (String.length u - 8) u)
  else if String.prefix "http://" u then rest_ok (String.substring 7 (String.length u - 7) u)
  else false.

End Shipping.
Import Shipping.

(** ** Carrier resolution and tracking URLs (client.py) *)

(** [generate_custom_tracking_url] (lines 45-56). *)
Definition generate_custom_tracking_url (carrier : ShippingCarrier) (tracking_number : string)
  : ret string :=
  match carrier with
  | DHL => Return ("https://www.dhl.com/us-en/home/tracking.html?tracking-id=" ++ tracking_number)%string
  | UPS | USPS | FEDEX | CUSTOM => Raise NotImplementedError
  end.

(** [determine_carrier] (lines 59-65); the second argument
    [marketpace_order_number] is [None] when omitted. *)
Definition determine_carrier (tracking_number : string) (marketpace_order_number : option string)
  : ret ShippingCarrier :=
  if String.prefix "1Z" tracking_number then Return UPS
  else Raise CarrierNotFound.

(** ** [MiraklClient]: tracking and ship confirmation (client.py) *)
Module Client.

(** [class CarrierConfig(TypedDict)] *)
Record CarrierConfig : Type := mk_CarrierConfig {
  shipping_carrier : ShippingCarrier;
  marketplace_carrier_code : string
}.

(** The attributes of a [MiraklClient] used below.  The carrier
    configurations are kept as the list given to [__init__]; the dict
    [{config["shipping_carrier"]: config for config in ...}] built from it
    maps each carrier to its last configuration, see [lookup_config]. *)
Record MiraklClient : Type := mk_client {
  base_url : string;
  carrier_configurations : list CarrierConfig;
  tracking_url_generation_func : ShippingCarrier -> string -> ret string;
  carrier_determination_func : string -> option string -> ret ShippingCarrier;
  (** [validators.url], the URL check of [validate_for_mirakl] *)
  url_validator : string -> bool
}.

(** The client built by [MiraklClient(marketplace, base_url=...,
    carrier_configurations=...)] with the default pluggable functions. *)
Definition default_client (url : string) (configs : list CarrierConfig) : MiraklClient :=
  mk_client url configs generate_custom_tracking_url determine_carrier validators_url.

(** [self.carrier_configurations[carrier]], [None] when [carrier] is not a
    key: the last configuration of the list for that carrier. *)
Definition lookup_config (configs : list CarrierConfig) (c : ShippingCarrier)
  : option CarrierConfig :=
  find (fun cfg => carrier_eqb (shipping_carrier cfg) c) (rev configs).

(** Effects of [put_tracking]. *)
Inductive tracking_event : Type :=
| DetermineCarrier (tracking_number : string) (second : option string)
| GenerateTrackingUrl (carrier : ShippingCarrier) (tracking_number : string)
| Put (url : string) (payload : OR23RequestBody).

(** One invocation of the undecorated [put_tracking] (lines 295-336);
    [resp] is the server's answer to the PUT request. *)
Definition put_tracking_body (self : MiraklClient) (order_id : order_id_t)
    (tracking_number : string) (carrier : option ShippingCarrier) (resp : response)
  : PyM.M tracking_event unit :=
  let url := (base_url self ++ "/api/orders/" ++ py_str_order_id order_id ++ "/tracking")%string in
  carrier <- (match carrier with
              | Some c => PyM.pure c
              | None =>
                  PyM.emit (DetermineCarrier tracking_number (Some tracking_number)) ;;;
                  PyM.lift (carrier_determination_func self tracking_number (Some tracking_number))
              end) ;;
  request_payload <-
    (match lookup_config (carrier_configurations self) carrier with
     | Some cfg =>
         PyM.pure (mk_OR23 (Some (marketplace_carrier_code cfg)) None None tracking_number)
     | None =>
         PyM.emit (GenerateTrackingUrl carrier tracking_number) ;;;
         u <- PyM.lift (tracking_url_generation_func self carrier tracking_number) ;;
         PyM.pure (mk_OR23 None (Some (carrier_value carrier)) (Some u) tracking_number)
     end) ;;
  request_payload_json <- PyM.lift (validate_for_mirakl (url_validator self) request_payload) ;;
  PyM.emit (Put url request_payload_json) ;;;
  PyM.lift (raise_for_status resp).

(** [class ShippingConfirmationResult(Enum)] *)
Inductive ShippingConfirmationResult : Type := CONFIRMED | PREVIOUSLY_CONFIRMED.

(** [re.search(r"Current status is", message)] finds a match. *)
Definition current_status_match (message : string) : bool :=
  match String.index 0 "Current status is" message with
  | Some _ => true
  | None => false
  end.

(** One invocation of the undecorated [put_ship_confirmation]
    (lines 339-358); [resp] is the server's answer to the PUT request. *)
Definition put_ship_confirmation_body (resp : response) : ret ShippingConfirmationResult :=
  if response_ok resp then Return CONFIRMED
  else
    match body resp with
    | BodyNotJson => Raise JSONDecodeError
    | BodyJsonNonObject => Raise (AttributeError "get")
    | BodyJsonObject None => Raise TypeError
    | BodyJsonObject (Some message) =>
        if current_status_match message then Return PREVIOUSLY_CONFIRMED
        else
          match raise_for_status resp with
          | Raise e => Raise e
          | Return _ =>
              Raise (Unreachable "This code should be unreachable, here to make mypy happy.")
          end
    end.

(** [@retry_wrapper put_ship_confirmation]: [server n] is the answer to the
    [n]-th PUT request. *)
Definition put_ship_confirmation (server : nat -> response)
  : ret (option ShippingConfirmationResult) * list RetryWrapper.event :=
  RetryWrapper.retry_wrapper (fun n => put_ship_confirmation_body (server n)).

(** [@retry_wrapper put_tracking]: [server n] is the answer to the [n]-th
    PUT request. *)
Definition put_tracking (self : MiraklClient) (order_id : order_id_t)
    (tracking_number : string) (carrier : option ShippingCarrier) (server : nat -> response)
  : ret (option unit) * list RetryWrapper.event :=
  RetryWrapper.retry_wrapper
    (fun n => fst (PyM.run (put_tracking_body self order_id tracking_number carrier (server n)))).

End Client.
Import Client.

(** ** Python floats and [round_up_to_nearest_nine] (client.py, lines 31-37)

    A Python [float] is an IEEE binary64 number, Rocq's primitive [float].
    The arithmetic operators [+], [-], [*] of two floats are the primitive
    operations.  The conversions that leave the float world are written out
    on the exact value [(-1)^s * m * 2^e] of a finite float given by
    [Prim2SF]. *)
Module PyFloat.

(** [q / d] rounded to the nearest integer, ties to even, for [q >= 0] and
    [d > 0]. *)
Definition div_round_half_even (q d : Z) : Z :=
  let (k, r) := Z.div_eucl q d in
  match Z.compare (2 * r) d with
  | Lt => k
  | Gt => k + 1
  | Eq => if Z.even k then k else k + 1
  end.

(** [m * scale * 2^e] rounded to the nearest integer, ties to even. *)
Definition scaled_round_half_even (m : positive) (scale e : Z) : Z :=
  if 0 <=? e then Zpos m * scale * 2 ^ e
  else div_round_half_even (Zpos m * scale) (2 ^ (- e)).

(** [float(n)] of a Python [int]: the nearest float, ties to even. *)
Definition float_of_int (n : Z) : float :=
  SF2Prim (binary_normalize FloatOps.prec FloatOps.emax n 0 false).

(** [int(x)]: truncation toward zero. *)
Definition py_int (x : float) : ret Z :=
  match Prim2SF x with
  | S754_zero _ => Return 0
  | S754_finite s m e =>
      let t := if 0 <=? e then Zpos m * 2 ^ e else Zpos m / 2 ^ (- e) in
      Return (if s then - t else t)
  | S754_infinity _ => Raise OverflowError
  | S754_nan => Raise (ValueError "cannot convert float NaN to integer")
  end.

(** [round(x)] with one argument: an [int], ties to even. *)
Definition py_round (x : float) : ret Z :=
  match Prim2SF x with
  | S754_zero _ => Return 0
  | S754_finite s m e =>
      let k := scaled_round_half_even m 1 e in
      Return (if s then - k else k)
  | S754_infinity _ => Raise OverflowError
  | S754_nan => Raise (ValueError "cannot convert float NaN to integer")
  end.

(** [round(x, 2)]: CPython rounds the exact value of [x] to 2 decimal
    places, ties to even ([_Py_dg_dtoa], mode 3), then reads the decimal
    [k / 100] back as the nearest float ([_Py_dg_strtod]); non-finite
    values round to themselves and the sign of a zero result is kept. *)
Definition py_round2 (x : float) : float :=
  match Prim2SF x with
  | S754_finite s m e =>
      let k := scaled_round_half_even m 100 e in
      match k with
      | Zpos p =>
          SF2Prim (SFdiv FloatOps.prec FloatOps.emax
                     (S754_finite s p 0) (S754_finite false 100 0))
      | _ => SF2Prim (S754_zero s)
      end
  | _ => x
  end.

(** The two-decimal digit of the exact value of a non-negative float:
    [floor(x * 100) mod 10]. *)
Definition cents_digit (x : float) : Z :=
  match Prim2SF x with
  | S754_finite false m e =>
      (if 0 <=? e then Zpos m * 100 * 2 ^ e else Zpos m * 100 / 2 ^ (- e)) mod 10
  | _ => 0
  end.

End PyFloat.

(** [round_up_to_nearest_nine(number)]. *)
Definition round_up_to_nearest_nine (number : float) : ret float :=
  let number := PyFloat.py_round2 number in
  match PyFloat.py_int number with
  | Raise e => Raise e
  | Return base =>
      match PyFloat.py_round
              ((number - PyFloat.float_of_int base) * PyFloat.float_of_int 100)%float with
      | Raise e => Raise e
      | Return mantissa =>
          let dist_to_next_nine :=
            (PyFloat.float_of_int (Z.abs ((mantissa mod 10) - 9)) * 0.01)%float in
          let rounded_number := (number + dist_to_next_nine)%float in
          Return rounded_number
      end
  end.

(** ** Offers (client.py, offer.py, public_input.py) *)
Module Offers.

(** [OF21Response]: one page of offers and the server's total count. *)
Record OF21Response (Offer : Type) : Type := mk_OF21Response {
  offers : list Offer;
  total_count : Z
}.
Arguments mk_OF21Response {Offer} offers total_count.
Arguments offers {Offer} _.
Arguments total_count {Offer} _.

(** Effects of [get_all_offers]: one call [self.get_offers(
    OF21QueryParams(offset=offset, max=max))]. *)
Inductive page_event : Type :=
| GetOffers (offset max : Z).

Section GetAllOffers.
Context {Offer : Type}.

(** [self.get_offers(OF21QueryParams(offset=offset, max=max))]: the
    answer of the server for that page, after [get_offers]'s own
    handling of rate limits. *)
Variable get_offers : Z -> Z -> ret (OF21Response Offer).

Definition limit : Z := 100.

(** [self.get_offers(...)] with its effect recorded. *)
Definition request_page (offset : Z) : PyM.M page_event (OF21Response Offer) :=
  PyM.emit (GetOffers offset limit) ;;;
  PyM.lift (get_offers offset limit).

(** [while current_offset < total_count: ...] (lines 245-250).  The loop
    runs at most [Z.to_nat total_count] times: each iteration adds
    [limit > 0] to [current_offset], which starts at 0. *)
Fixpoint offers_loop (fuel : nat) (current_offset total_count : Z)
    (offers_acc : list Offer) : PyM.M page_event (list Offer) :=
  match fuel with
  | O => PyM.pure offers_acc
  | S fuel' =>
      if current_offset <? total_count then
        let current_offset := current_offset + limit in
        next_page <- request_page current_offset ;;
        offers_loop fuel' current_offset total_count (offers_acc ++ offers next_page)
      else PyM.pure offers_acc
  end.

(** [get_all_offers] (lines 234-252). *)
Definition get_all_offers : PyM.M page_event (list Offer) :=
  let current_offset := 0 in
  first_page <- request_page current_offset ;;
  let offers_acc := offers first_page in
  let total_count := total_count first_page in
  offers_loop (Z.to_nat total_count) current_offset total_count offers_acc.

End GetAllOffers.

(** [class OfferUpdateInput(TypedDict)]; a [NotRequired] key is [None]
    when absent. *)
Record OfferUpdateInput : Type := mk_OfferUpdateInput {
  offer_sku : string;
  product_id : string;
  base_price : float;
  discount_price : option float;
  discount_start_date : option string;
  discount_end_date : option string;
  quantity : Z
}.

(** [OF24Request.Offer.Discount] *)
Record OF24Discount : Type := mk_OF24Discount {
  end_date : option string;
  start_date : option string;
  discount_price_field : option float
}.

(** [OF24Request.Offer], restricted to the fields set by [update_offers]
    and the required ones; the other fields keep their defaults. *)
Record OF24Offer : Type := mk_OF24Offer {
  o_price : float;
  o_product_id : string;
  o_product_id_type : string;
  o_quantity : Z;
  o_shop_sku : string;
  o_state_code : string;
  o_discount : option OF24Discount
}.

(** The keyword arguments of a call [OF24Request.Offer(...)]. *)
Record OF24OfferKwargs : Type := mk_OF24OfferKwargs {
  kw_price : option float;
  kw_shop_sku : option string;
  kw_product_id : option string;
  kw_product_id_type : option string;
  kw_state_code : option string;
  kw_quantity : option Z
}.

(** The pydantic constructor [OF24Request.Offer(...)]: [price],
    [product_id], [product_id_type], [shop_sku] and [state_code] have no
    default and are required; [quantity] defaults to 0 and [discount] to
    [None].  A missing required field raises a [ValidationError] naming the
    first one in declaration order. *)
Definition OF24Offer_new (kw : OF24OfferKwargs) : ret OF24Offer :=
  match kw_price kw, kw_product_id kw, kw_product_id_type kw,
        kw_shop_sku kw, kw_state_code kw with
  | None, _, _, _, _ => Raise (ValidationError "price")
  | _, None, _, _, _ => Raise (ValidationError "product_id")
  | _, _, None, _, _ => Raise (ValidationError "product_id_type")
  | _, _, _, None, _ => Raise (ValidationError "shop_sku")
  | _, _, _, _, None => Raise (ValidationError "state_code")
  | Some p, Some pid, Some pidt, Some sku, Some sc =>
      Return (mk_OF24Offer p pid pidt
                (match kw_quantity kw with Some q => q | None => 0 end)
                sku sc None)
  end.

(** [OF24Request] *)
Definition OF24Request : Type := list OF24Offer.

(** [request_model.validate_all_offers()]: [OF24Request] (offer.py) and its
    base [pydantic.BaseModel] define no attribute [validate_all_offers], so
    the attribute lookup raises [AttributeError]. *)
Definition validate_all_offers (request_model : OF24Request) : ret OF24Request :=
  Raise (AttributeError "validate_all_offers").

(** The server's answer to the POST request: the response and the
    ["import_id"] entry of its JSON body, if any. *)
Record OF24Answer : Type := mk_OF24Answer {
  of24_response : response;
  import_id : option Z
}.

(** Effects of [update_offers]. *)
Inductive offer_event : Type :=
| Post (url : string) (payload : OF24Request).

(** The body of the [for offer_input in input] loop (lines 200-221). *)
Definition build_offer (offer_input : OfferUpdateInput) : ret OF24Offer :=
  match round_up_to_nearest_nine (base_price offer_input) with
  | Raise e => Raise e
  | Return price =>
      match OF24Offer_new
              (mk_OF24OfferKwargs (Some price) (Some (offer_sku offer_input))
                 (Some (product_id offer_input)) None None (Some (quantity offer_input))) with
      | Raise e => Raise e
      | Return offer_request_model =>
          match discount_price offer_input with
          | None => Return offer_request_model
          | Some dp =>
              let start_date := discount_start_date offer_input in
              let end_date := discount_end_date offer_input in
              (* discount = OF24Request.Offer.Discount(price=...), then the
                 dates that are not None *)
              let discount :=
                mk_OF24Discount end_date start_date (Some dp) in
              Return {| o_price := o_price offer_request_model;
                        o_product_id := o_product_id offer_request_model;
                        o_product_id_type := o_product_id_type offer_request_model;
                        o_quantity := o_quantity offer_request_model;
                        o_shop_sku := o_shop_sku offer_request_model;
                        o_state_code := o_state_code offer_request_model;
                        o_discount := Some discount |}
          end
      end
  end.

(** [for offer_input in input: ... request_model.offers.append(...)]. *)
Fixpoint build_offers (input : list OfferUpdateInput) (request_model : OF24Request)
  : ret OF24Request :=
  match input with
  | [] => Return request_model
  | offer_input :: rest =>
      match build_offer offer_input with
      | Raise e => Raise e
      | Return o => build_offers rest (request_model ++ [o])
      end
  end.

(** [update_offers] (lines 192-232); [answer] is the server's answer to
    the POST request. *)
Definition update_offers (base_url : string) (input : list OfferUpdateInput)
    (answer : OF24Answer) : PyM.M offer_event Z :=
  let url := (base_url ++ "/api/offers")%string in
  request_model <- PyM.lift (build_offers input []) ;;
  request_json_payload <- PyM.lift (validate_all_offers request_model) ;;
  PyM.emit (Post url request_json_payload) ;;;
  PyM.lift (raise_for_status (of24_response answer)) ;;;
  PyM.pure (match import_id answer with Some i => i | None => 0 end).

End Offers.

(** ** [ShippingCarrier.from_str] (shipping.py, lines 14-26) *)
Definition carrier_from_str (value : string) : ShippingCarrier :=
  if String.eqb value "ups" then UPS
  else if String.eqb value "usps" then USPS
  else if String.eqb value "fedex" then FEDEX
  else if String.eqb value "dhl" then DHL
  else CUSTOM.

(** ** [MiraklClient.get_offers] (client.py, lines 254-288) *)
Module GetOffers.

Section GetOffersLoop.
Context {Offer : Type}.

(** [answer n] is the [n]-th answer of the server to
    [requests.get(url, params=params.to_dict(), ...)]: the response and what
    the construction of the [OF21Response] from [response.json()] gives (it
    may raise, e.g. on a missing key). *)
Variable answer : nat -> response * ret (Offers.OF21Response Offer).

(** The [while retry_count < max_retries] loop; a GET request is a
    [RetryWrapper.Call] and a completed [time.sleep] a [RetryWrapper.Sleep].  As for
    [retry_wrapper], [retry_count] grows by one per iteration, so the fuel
    [max_retries] is enough. *)
Fixpoint get_offers_loop (fuel retry_count : nat)
  : PyM.M RetryWrapper.event (Offers.OF21Response Offer) :=
  match fuel with
  | O => PyM.raise (Unreachable "This code should be unreachable")
  | S fuel' =>
      if Nat.ltb retry_count RetryWrapper.max_retries then
        PyM.emit RetryWrapper.Call ;;;
        let (resp, of21_response) := answer retry_count in
        let retry_count := S retry_count in
        if response_ok resp then PyM.lift of21_response
        else if Z.eqb (status_code resp) 429 then
          retry_after <- PyM.lift (RetryWrapper.retry_after_secs (retry_after_header resp)) ;;
          PyM.lift (RetryWrapper.time_sleep retry_after) ;;;
          PyM.emit (RetryWrapper.Sleep retry_after) ;;;
          get_offers_loop fuel' retry_count
        else
          PyM.lift (raise_for_status resp) ;;;
          get_offers_loop fuel' retry_count
      else PyM.raise (Unreachable "This code should be unreachable")
  end.

Definition get_offers : PyM.M RetryWrapper.event (Offers.OF21Response Offer) :=
  get_offers_loop RetryWrapper.max_retries 0.

End GetOffersLoop.

End GetOffers.

(** ** [MiraklClientProvider] (client.py, lines 361-402) *)
Module Provider.

(** [class MarketplaceConfig(TypedDict)] *)
Record MarketplaceConfig : Type := mk_MarketplaceConfig {
  mc_base_url : string;
  mc_api_key : string
}.

(** A [MiraklClient] together with the attributes [marketplace] and
    [api_key] that the operations modelled above do not read. *)
Record ClientEntry : Type := mk_ClientEntry {
  ce_marketplace : string;
  ce_api_key : string;
  ce_client : MiraklClient
}.

(** A Python [dict] with string keys, as an association list holding each
    key once. *)
Definition dict (V : Type) : Type := list (string * V).

(** [d.get(k)] *)
Definition dict_get {V : Type} (k : string) (d : dict V) : option V :=
  option_map snd (find (fun p => String.eqb (fst p) k) d).

(** [d[k] = v]: replaces the entry of [k], if any. *)
Definition dict_set {V : Type} (k : string) (v : V) (d : dict V) : dict V :=
  (k, v) :: filter (fun p => negb (String.eqb (fst p) k)) d.

(** [MiraklClient(marketplace, base_url=..., api_key=...,
    carrier_configurations=...)]: the other arguments take their defaults. *)
Definition new_client (marketplace base_url api_key : string)
    (carrier_configurations : list CarrierConfig) : ClientEntry :=
  mk_ClientEntry marketplace api_key (default_client base_url carrier_configurations).

Definition set_tracking_url_generation_func (ce : ClientEntry)
    (f : ShippingCarrier -> string -> ret string) : ClientEntry :=
  let c := ce_client ce in
  mk_ClientEntry (ce_marketplace ce) (ce_api_key ce)
    (mk_client (base_url c) (carrier_configurations c) f
       (carrier_determination_func c) (url_validator c)).

Definition set_carrier_determination_func (ce : ClientEntry)
    (f : string -> option string -> ret ShippingCarrier) : ClientEntry :=
  let c := ce_client ce in
  mk_ClientEntry (ce_marketplace ce) (ce_api_key ce)
    (mk_client (base_url c) (carrier_configurations c)
       (tracking_url_generation_func c) f (url_validator c)).

(** The outcome of [MiraklClientProvider(...)]: the dict [self.clients], or
    the [KeyError] of [marketplace_config[marketplace]]. *)
Inductive provider_ret : Type :=
| ProviderOk (clients : dict ClientEntry)
| ProviderKeyError (marketplace : string).

Section Init.
Variable marketplace_config : dict MarketplaceConfig.
Variable configured_carriers_config : dict (list CarrierConfig).
Variable custom_tracking_url_generation_config : dict (ShippingCarrier -> string -> ret string).
Variable custom_carrier_determination_config : dict (string -> option string -> ret ShippingCarrier).

(** The body of [for marketplace in marketplace_names] (lines 384-399). *)
Definition configure_client (marketplace : string) (config : MarketplaceConfig) : ClientEntry :=
  let ce := new_client marketplace (mc_base_url config) (mc_api_key config)
              (match dict_get marketplace configured_carriers_config with
               | Some l => l
               | None => []
               end) in
  let ce := match dict_get marketplace custom_tracking_url_generation_config with
            | Some f => set_tracking_url_generation_func ce f
            | None => ce
            end in
  match dict_get marketplace custom_carrier_determination_config with
  | Some f => set_carrier_determination_func ce f
  | None => ce
  end.

Fixpoint init_loop (marketplace_names : list string) (clients : dict ClientEntry)
  : provider_ret :=
  match marketplace_names with
  | [] => ProviderOk clients
  | marketplace :: rest =>
      match dict_get marketplace marketplace_config with
      | None => ProviderKeyError marketplace
      | Some config =>
          init_loop rest (dict_set marketplace (configure_client marketplace config) clients)
      end
  end.

(** [MiraklClientProvider.__init__] *)
Definition provider_init (marketplace_names : list string) : provider_ret :=
  init_loop marketplace_names [].

End Init.

(** [MiraklClientProvider.get_client] *)
Definition get_client (clients : dict ClientEntry) (marketplace : string) : option ClientEntry :=
  dict_get marketplace clients.

End Provider.

(** ** Orders: [get_orders] (client.py, lines 127-168) and [accept_order]
    (lines 170-186) *)
Module Orders.

(** [str(n)] of a Python [int]. *)
Definition py_str_int (z : Z) : string :=
  DecimalString.NilZero.string_of_int (Z.to_int z).

(** [@dataclass class GetOrdersResult] *)
Record GetOrdersResult (Order : Type) : Type := mk_GetOrdersResult {
  orders : list Order;
  has_more : bool;
  next_order_start_offset : Z
}.
Arguments mk_GetOrdersResult {Order} orders has_more next_order_start_offset.
Arguments orders {Order} _.
Arguments has_more {Order} _.
Arguments next_order_start_offset {Order} _.

(** Effects: [requests.get(url, params=params_str, ...)] and
    [requests.put(url, ..., json=payload)] of [accept_order], whose
    payload ["order_lines"] is the list of its [("accepted", "id")]
    entries. *)
Inductive order_event : Type :=
| Get (url : string) (params : string)
| PutAccept (url : string) (order_lines : list (bool * string)).

(** The dict [params], in insertion order (its keys are distinct). *)
Definition get_orders_params (offset size : Z) (status : option string)
    (order_ids : list string) : list (string * string) :=
  let params := [("offset"%string, py_str_int offset); ("max"%string, py_str_int size)] in
  let params := match order_ids with
                | [] => params
                | _ => params ++ [("order_ids"%string, String.concat "," order_ids)]
                end in
  match status with
  | Some s => params ++ [("order_state_codes"%string, s)]
  | None => params
  end.

(** ["&".join([f"{k}={v}" for k, v in params.items()])] *)
Definition params_str (params : list (string * string)) : string :=
  String.concat "&" (map (fun kv => (fst kv ++ "=" ++ snd kv)%string) params).

Section GetOrders.
Context {Order : Type}.

(** [resp] is the server's answer to the GET request; [decoded] is what
    [OR11Response(orders=[...], total_count=...)] built from
    [response.json()] gives: the orders and the total count, or an
    exception. *)
Definition get_orders (base_url : string) (offset size : Z) (status : option string)
    (order_ids : list string) (resp : response) (decoded : ret (list Order * Z))
  : PyM.M order_event (GetOrdersResult Order) :=
  let url := (base_url ++ "/api/orders")%string in
  let params_str := params_str (get_orders_params offset size status order_ids) in
  PyM.emit (Get url params_str) ;;;
  (if negb (response_ok resp) then PyM.lift (raise_for_status resp) else PyM.pure tt) ;;;
  or11_response <- PyM.lift decoded ;;
  let has_more := Z.ltb (offset + size) (snd or11_response) in
  PyM.pure (mk_GetOrdersResult (fst or11_response) has_more (offset + size)).

End GetOrders.

(** [accept_order]; [resp] is the server's answer to the PUT request. *)
Definition accept_order (base_url order_id : string) (order_line_ids : list string)
    (resp : response) : PyM.M order_event unit :=
  let url := (base_url ++ "/api/orders/" ++ order_id ++ "/accept")%string in
  let payload := map (fun id => (true, id)) order_line_ids in
  PyM.emit (PutAccept url payload) ;;;
  if negb (response_ok resp) then PyM.lift (raise_for_status resp) else PyM.pure tt.

End Orders.

(** ** Two-decimal prices *)

(** The float [k / 100] of Python (true division of two [int]s, correctly
    rounded), i.e. the price written with two decimals [d.cc] for
    [k = 100 * d + cc >= 0]. *)
Definition cents_price (k : Z) : float :=
  match k with
  | Zpos p => SF2Prim (SFdiv FloatOps.prec FloatOps.emax
                         (S754_finite false p 0) (S754_finite false 100 0))
  | _ => 0%float
  end.

(** [round_up_to_nearest_nine] on the price [k / 100] returns a value [y >=
    k / 100] with [round(y, 2) == (k - k % 10 + 9) / 100]. *)
Definition charm_ok (k : Z) : bool :=
  match round_up_to_nearest_nine (cents_price k) with
  | Return y =>
      PrimFloat.leb (cents_price k) y &&
      PrimFloat.eqb (PyFloat.py_round2 y) (cents_price (k - k mod 10 + 9))
  | Raise _ => false
  end.

(** ** Sample inputs *)


(** A call rate-limited with a negative [Retry-After] value. *)
Definition negative_retry_after (i : nat) : ret unit :=
  Raise (HTTPError 429 (Some (RetryAfterInt (-1)))).

Definition ok_page_response : response := mk_response 200 None (BodyJsonObject None).

Definition rate_limit_response : response :=
  mk_response 429 (Some (RetryAfterInt 3)) (BodyJsonObject (Some "Too many requests"%string)).

(** Answers to [get_offers]'s GET requests: two rate limits, then a page. *)
Definition offers_answers (i : nat) : response * ret (Offers.OF21Response Z) :=
  if Nat.ltb i 2 then (rate_limit_response, Raise JSONDecodeError)
  else (ok_page_response, Return (Offers.mk_OF21Response [1; 2] 2)).

(** A server holding the offers [0 .. n-1] that answers the request for
    [offset] and [max] with that slice and the total count [n]. *)
Definition slice_source (n : nat) (offset max : Z) : ret (Offers.OF21Response Z) :=
  Return (Offers.mk_OF21Response
            (firstn (Z.to_nat max) (skipn (Z.to_nat offset) (map Z.of_nat (seq 0 n))))
            (Z.of_nat n)).

(** Its pages of 100 offers. *)
Definition slice_page (n : nat) (offset : Z) : Offers.OF21Response Z :=
  Offers.mk_OF21Response
    (firstn 100 (skipn (Z.to_nat offset) (map Z.of_nat (seq 0 n)))) (Z.of_nat n).

Definition rejected_response (message : string) : response :=
  mk_response 400 None (BodyJsonObject (Some message)).

(** A client with the default functions and a configuration for UPS
    only. *)
Definition sample_client : MiraklClient :=
  default_client "https://marketplace.example" [mk_CarrierConfig UPS "ups-code"].

Definition sample_marketplace_config : Provider.dict Provider.MarketplaceConfig :=
  [("acme"%string, Provider.mk_MarketplaceConfig "https://acme.example" "acme-key")].

(** * Properties *)

(** ** The retrying request executor *)
Section RetryWrapperProofs.
Import RetryWrapper.

(** [time.sleep] accepts exactly the durations from 0 to [sleep_limit]. *)
Lemma time_sleep_valid (secs : Z) :
  time_sleep secs = Return tt <-> 0 <= secs <= sleep_limit.
Proof.
  unfold time_sleep.
  destruct (Z.ltb_spec secs (- sleep_limit)), (Z.ltb_spec sleep_limit secs),
    (Z.ltb_spec secs 0);
    cbn [orb]; split; intros; try discriminate; try reflexivity;
    unfold sleep_limit in *; lia.
Qed.

(** [j] consecutive rate-limited attempts starting at attempt [rc], with
    valid [Retry-After] values, only add their calls and sleeps to the
    trace. *)
Lemma retry_loop_rate_limited {A : Type} (f : nat -> ret A)
    (headers : nat -> option retry_after_value) (secs : nat -> Z) :
  forall j rc tr fuel,
    (forall i, (rc <= i < rc + j)%nat ->
       f i = Raise (HTTPError 429 (headers i)) /\ valid_retry_after (headers i) (secs i)) ->
    (rc + j <= max_retries)%nat ->
    (rc + fuel = max_retries)%nat ->
    retry_loop f fuel rc tr
    = retry_loop f (fuel - j) (rc + j) (tr ++ backoff_trace secs rc j).
Proof.
  induction j as [| j IH]; intros rc tr fuel Hf Hle Hfuel.
  - rewrite Nat.sub_0_r, Nat.add_0_r. unfold backoff_trace. simpl.
    rewrite app_nil_r. reflexivity.
  - destruct fuel as [| fuel]; [unfold max_retries in *; lia |].
    cbn [retry_loop].
    assert (Hlt : Nat.ltb rc max_retries = true)
      by (apply Nat.ltb_lt; unfold max_retries in *; lia).
    destruct (Hf rc ltac:(lia)) as (Hfr & Hsecs & Hbound).
    rewrite Hlt, Hfr. cbn [is_rate_limited Z.eqb Pos.eqb].
    rewrite Hsecs, (proj2 (time_sleep_valid (secs rc)) Hbound).
    rewrite (IH (S rc)) by (intros; try apply Hf; lia).
    replace (S rc + j)%nat with (rc + S j)%nat by lia.
    simpl (S fuel - S j)%nat. f_equal.
    unfold backoff_trace. simpl seq. cbn [flat_map].
    rewrite <- !app_assoc. reflexivity.
Qed.

(** Claim C5: the wrapper retries exactly the failures with status 429,
    sleeping after each of them for the [Retry-After] value (2 when the
    header is absent), for values that [int()] and [time.sleep] accept
    ([valid_retry_after]).  After [n < 10] such attempts, a success is
    not retried (the wrapper returns, here [None]), and a failure of any
    other kind is raised at once with no further call; after 10 attempts
    that all failed with status 429 the wrapper raises
    [Exception("Max retries exceeded")]. *)
Theorem retry_wrapper_retries_only_rate_limits {A : Type}
    (f : nat -> ret A) (headers : nat -> option retry_after_value) (secs : nat -> Z)
    (n : nat)
    (Hrl : forall i, (i < n)%nat ->
       f i = Raise (HTTPError 429 (headers i)) /\ valid_retry_after (headers i) (secs i)) :
  ((n < max_retries)%nat -> forall a, f n = Return a ->
     retry_wrapper f = (Return None, backoff_trace secs 0 n ++ [Call])) /\
  ((n < max_retries)%nat -> forall e, f n = Raise e -> is_rate_limited e = false ->
     retry_wrapper f = (Raise e, backoff_trace secs 0 n ++ [Call])) /\
  (n = max_retries ->
     retry_wrapper f = (Raise MaxRetriesExceeded, backoff_trace secs 0 n)).
Proof.
  split; [| split].
  - intros Hn a Ha. unfold retry_wrapper.
    rewrite (retry_loop_rate_limited f headers secs n 0 [] max_retries)
      by (try (intros; apply Hrl); lia).
    simpl (0 + n)%nat. simpl ([] ++ _).
    destruct (max_retries - n)%nat as [| k] eqn:Hk; [lia |].
    cbn [retry_loop].
    rewrite (proj2 (Nat.ltb_lt n max_retries) Hn), Ha.
    rewrite (proj2 (Nat.leb_gt max_retries n) Hn). reflexivity.
  - intros Hn e He Hnot. unfold retry_wrapper.
    rewrite (retry_loop_rate_limited f headers secs n 0 [] max_retries)
      by (try (intros; apply Hrl); lia).
    simpl (0 + n)%nat. simpl ([] ++ _).
    destruct (max_retries - n)%nat as [| k] eqn:Hk; [lia |].
    cbn [retry_loop].
    assert (Hlt : Nat.ltb n max_retries = true) by (apply Nat.ltb_lt; exact Hn).
    rewrite Hlt, He, Hnot. reflexivity.
  - intros Hn. subst n. unfold retry_wrapper.
    rewrite (retry_loop_rate_limited f headers secs max_retries 0 [] max_retries)
      by (try (intros; apply Hrl); lia).
    rewrite Nat.sub_diag. reflexivity.
Qed.

(** Claim C1 (evaluated): a call answered once with status 429 (no
    [Retry-After] header) and then successfully with the value 42: the
    wrapper sleeps 2 seconds, calls again, and returns [None], not 42. *)
Theorem retry_wrapper_drops_result :
  retry_wrapper (fun n => match n with
                          | O => Raise (HTTPError 429 None)
                          | S _ => Return 42%Z
                          end)
  = (Return None, [Call; Sleep 2; Call]).
Proof. vm_compute. reflexivity. Qed.

End RetryWrapperProofs.

(** An instance of claim C5: two rate-limited answers with [Retry-After: 5]
    and then a 503 failure. *)
Definition c5_answers (i : nat) : ret unit :=
  if Nat.ltb i 2 then Raise (HTTPError 429 (Some (RetryAfterInt 5)))
  else Raise (HTTPError 503 None).

Lemma retry_wrapper_retries_only_rate_limits_witness :
  RetryWrapper.retry_wrapper c5_answers
  = (Raise (HTTPError 503 None),
     RetryWrapper.backoff_trace (fun _ => 5) 0 2 ++ [RetryWrapper.Call]).
Proof.
  apply (proj1 (proj2 (retry_wrapper_retries_only_rate_limits c5_answers
                  (fun _ => Some (RetryAfterInt 5)) (fun _ => 5) 2
                  (fun i Hi => ltac:(unfold c5_answers;
                                     rewrite (proj2 (Nat.ltb_lt i 2) Hi);
                                     split; [reflexivity |];
                                     split; [reflexivity | unfold RetryWrapper.sleep_limit; lia]))))).
  - vm_compute. lia.
  - reflexivity.
  - reflexivity.
Defined.

(** ** Ship confirmation *)

Definition ok_response : response := mk_response 200 None (BodyJsonObject None).

Definition already_shipped_response : response :=
  mk_response 400 None
    (BodyJsonObject (Some "Cannot ship order. Current status is SHIPPED"%string)).

(** Claim C2 (evaluated): the undecorated method computes [CONFIRMED] for a
    successful answer and [PREVIOUSLY_CONFIRMED] for a rejection whose
    message contains "Current status is", but [put_ship_confirmation] as
    decorated by [retry_wrapper] returns [None] in both cases. *)
Theorem put_ship_confirmation_returns_none :
  put_ship_confirmation_body ok_response = Return CONFIRMED /\
  put_ship_confirmation (fun _ => ok_response) = (Return None, [RetryWrapper.Call]) /\
  put_ship_confirmation_body already_shipped_response = Return PREVIOUSLY_CONFIRMED /\
  put_ship_confirmation (fun _ => already_shipped_response)
  = (Return None, [RetryWrapper.Call]).
Proof. vm_compute. repeat split. Qed.

(** ** Fetching all offers *)
Section GetAllOffersProofs.
Import Offers.

(** A paged source of 250 offers, numbered 0 to 249, that answers every
    page request with the slice [offset, offset + max) and a total count
    of 250. *)
Definition synthetic_offers : list Z := map Z.of_nat (seq 0 250).

Definition synthetic_get_offers (offset max : Z) : ret (OF21Response Z) :=
  Return (mk_OF21Response
            (firstn (Z.to_nat max) (skipn (Z.to_nat offset) synthetic_offers)) 250).

(** Claim C3 (evaluated): over the 250-offer source, [get_all_offers]
    returns the 250 offers in order but requests four pages, at offsets 0,
    100, 200 and 300. *)
Theorem get_all_offers_250_requests_four_pages :
  PyM.run (get_all_offers synthetic_get_offers)
  = (Return synthetic_offers,
     [GetOffers 0 100; GetOffers 100 100; GetOffers 200 100; GetOffers 300 100]).
Proof. vm_compute. reflexivity. Qed.

End GetAllOffersProofs.

(** ** Validation of tracking payloads *)

Definition dhl_url : string :=
  "https://www.dhl.com/us-en/home/tracking.html?tracking-id=JD014600006281230704".

(** Claim C4 fails: a payload of the carrier-code shape (code and tracking
    number, no name, no URL) is rejected, and a payload of the name+URL shape
    with an empty carrier name is accepted. *)
Lemma validate_for_mirakl_counterexample :
  (exists msg, validate_for_mirakl validators_url
                 (mk_OR23 (Some "UPS-CODE"%string) None None "1Z999AA10123456784")
               = Raise (ValueError msg)) /\
  validate_for_mirakl validators_url (mk_OR23 None (Some EmptyString) (Some dhl_url) "JD014600006281230704")
  = Return (mk_OR23 None (Some EmptyString) (Some dhl_url) "JD014600006281230704").
Proof. split; [eexists |]; vm_compute; reflexivity. Qed.

(** Claim C4, as amended: a payload without carrier code is accepted,
    unchanged, exactly when it has a carrier name (any string, the empty one
    included) and a carrier URL that the URL check accepts; every other such
    payload is rejected with a [ValueError]. *)
Theorem validate_for_mirakl_without_carrier_code
    (url_valid : string -> bool) (name url : option string) (tracking_number : string) :
  (validate_for_mirakl url_valid (mk_OR23 None name url tracking_number)
   = Return (mk_OR23 None name url tracking_number)
   <-> exists n u, name = Some n /\ url = Some u /\ url_valid u = true) /\
  (validate_for_mirakl url_valid (mk_OR23 None name url tracking_number)
   = Return (mk_OR23 None name url tracking_number)
   \/ exists msg, validate_for_mirakl url_valid (mk_OR23 None name url tracking_number)
                  = Raise (ValueError msg)).
Proof.
  unfold validate_for_mirakl; cbn [carrier_code carrier_name carrier_url is_None andb orb].
  destruct name as [n |], url as [u |]; cbn.
  - destruct (url_valid u) eqn:Hu.
    + split; [split; intros _; [exists n, u; auto | reflexivity] | left; reflexivity].
    + split.
      * split; [discriminate | intros (n' & u' & _ & Hu' & Hv); injection Hu' as ->; congruence].
      * right; eexists; reflexivity.
  - split; [split; [discriminate | intros (n' & u' & _ & Hu' & _); discriminate] |
            right; eexists; reflexivity].
  - split; [split; [discriminate | intros (n' & u' & Hn' & _); discriminate] |
            right; eexists; reflexivity].
  - split; [split; [discriminate | intros (n' & u' & Hn' & _); discriminate] |
            right; eexists; reflexivity].
Qed.

(** ** The price normalizer *)

(** Claim C6 (evaluated): [round_up_to_nearest_nine] gives 10.09 for 10.00
    and 10.99 for 10.91, but for the price 0.35 it returns the float
    0.38999999999999996: a value different from the float 0.39, whose exact
    decimal expansion has 8 as its cents digit. *)
Theorem round_up_to_nearest_nine_0_35 :
  round_up_to_nearest_nine 10.00%float = Return 10.09%float /\
  round_up_to_nearest_nine 10.91%float = Return 10.99%float /\
  round_up_to_nearest_nine 0.35%float = Return 0.38999999999999996%float /\
  PrimFloat.eqb 0.38999999999999996%float 0.39%float = false /\
  PyFloat.cents_digit 0.38999999999999996%float = 8.
Proof. vm_compute. repeat split. Qed.

(** ** Traces of the writer monad *)

Lemma extends_pure {E A : Type} (a : A) : PyM.extends (E := E) (PyM.pure a).
Proof. intros tr; exists []; symmetry; apply app_nil_r. Qed.

Lemma extends_emit {E : Type} (ev : E) : PyM.extends (PyM.emit ev).
Proof. intros tr; exists [ev]; reflexivity. Qed.

Lemma extends_lift {E A : Type} (r : ret A) : PyM.extends (E := E) (PyM.lift r).
Proof. intros tr; exists []; symmetry; apply app_nil_r. Qed.

Lemma extends_bind {E A B : Type} (m : PyM.M E A) (k : A -> PyM.M E B) :
  PyM.extends m -> (forall a, PyM.extends (k a)) -> PyM.extends (PyM.bind m k).
Proof.
  intros Hm Hk tr. unfold PyM.bind.
  destruct (Hm tr) as [e1 H1].
  destruct (m tr) as [[a | e] tr'] eqn:Em; cbn in H1; subst tr'.
  - destruct (Hk a (tr ++ e1)) as [e2 H2]. exists (e1 ++ e2).
    rewrite H2, app_assoc. reflexivity.
  - exists e1. reflexivity.
Qed.

Ltac solve_extends :=
  repeat (intros; cbv zeta;
          match goal with
          | |- PyM.extends (PyM.bind _ _) => apply extends_bind
          | |- PyM.extends (PyM.pure _) => apply extends_pure
          | |- PyM.extends (PyM.emit _) => apply extends_emit
          | |- PyM.extends (PyM.lift _) => apply extends_lift
          | |- PyM.extends (match ?x with _ => _ end) => destruct x
          end).

(** A computation that starts with the effect [ev] has a trace that starts
    with [ev]. *)
Lemma run_emit_first {E A B : Type} (ev : E) (m : PyM.M E A) (k : A -> PyM.M E B) :
  PyM.extends m -> (forall a, PyM.extends (k a)) ->
  exists rest, snd (PyM.run (PyM.bind (PyM.bind (PyM.emit ev) (fun _ => m)) k)) = ev :: rest.
Proof.
  intros Hm Hk.
  destruct (extends_bind m k Hm Hk [ev]) as [ext Hext].
  exists ext. exact Hext.
Qed.

(** ** Carrier resolution *)

Lemma prefix_1Z (s : string) :
  String.prefix "1Z" s = true <-> exists rest, s = ("1Z" ++ rest)%string.
Proof.
  destruct s as [| a [| b rest]]; cbn [String.prefix String.append].
  - split; [discriminate | intros [rest H]; discriminate].
  - destruct (Ascii.ascii_dec "1"%char a); split; try discriminate;
      intros [rest H]; discriminate.
  - destruct (Ascii.ascii_dec "1"%char a) as [<- | Ha].
    + destruct (Ascii.ascii_dec "Z"%char b) as [<- | Hb].
      * split; [intros _; exists rest; reflexivity | intros _; destruct rest; reflexivity].
      * split; [discriminate | intros [r H]; inversion H; congruence].
    + split; [discriminate | intros [r H]; inversion H; congruence].
Qed.

(** Claim C8: [determine_carrier] returns [UPS] exactly for the tracking
    numbers that start with "1Z" and raises [CarrierNotFound] exactly for
    the others, whatever its second argument. *)
Theorem determine_carrier_ups_iff_1Z (tracking_number : string) (order_reference : option string) :
  (determine_carrier tracking_number order_reference = Return UPS
   <-> exists rest, tracking_number = ("1Z" ++ rest)%string) /\
  (determine_carrier tracking_number order_reference = Raise CarrierNotFound
   <-> ~ exists rest, tracking_number = ("1Z" ++ rest)%string).
Proof.
  rewrite <- prefix_1Z. unfold determine_carrier.
  destruct (String.prefix "1Z" tracking_number); split; split;
    try discriminate; try reflexivity; intros H; try contradiction.
Qed.

(** Claim C10: the outcome of [determine_carrier] does not depend on its
    second argument, and [put_tracking] without a carrier first calls the
    carrier determination function with the tracking number as both
    arguments. *)
Theorem determine_carrier_second_argument_unused :
  (forall tracking_number o1 o2,
      determine_carrier tracking_number o1 = determine_carrier tracking_number o2) /\
  (forall self order_id tracking_number resp,
      exists rest,
        snd (PyM.run (put_tracking_body self order_id tracking_number None resp))
        = DetermineCarrier tracking_number (Some tracking_number) :: rest).
Proof.
  split.
  - intros; reflexivity.
  - intros self order_id tracking_number resp.
    unfold put_tracking_body. cbv zeta.
    apply run_emit_first; solve_extends.
Qed.

(** ** Offer updates *)

(** Claim C9 (evaluated on all inputs): [update_offers] never returns an
    import id and never sends its POST request: it raises, either because
    [OF24Request.Offer] is built without its required fields
    [product_id_type] and [state_code], or, for an empty list, because
    [OF24Request] has no method [validate_all_offers]. *)
Theorem update_offers_always_raises
    (base_url : string) (input : list Offers.OfferUpdateInput) (answer : Offers.OF24Answer) :
  exists e, PyM.run (Offers.update_offers base_url input answer) = (Raise e, []).
Proof.
  unfold Offers.update_offers, PyM.run, PyM.bind, PyM.lift.
  destruct (Offers.build_offers input []); eexists; reflexivity.
Qed.

(** * Further properties of the client *)

Section RW.
Import RetryWrapper.



(** A wrapped call that is rate-limited [n < 10] times with valid
    [Retry-After] values and then once more with a value that [int()] or
    [time.sleep] refuses is invoked [n + 1] times: the wrapper raises the
    [ValueError] or [OverflowError] of [int()] or [time.sleep] at once,
    without a further attempt. *)
Theorem retry_wrapper_invalid_retry_after {A : Type}
    (f : nat -> ret A) (headers : nat -> option retry_after_value) (secs : nat -> Z)
    (n : nat) (h : option retry_after_value)
    (Hn : (n < max_retries)%nat)
    (Hrl : forall i, (i < n)%nat ->
       f i = Raise (HTTPError 429 (headers i)) /\ valid_retry_after (headers i) (secs i))
    (H429 : f n = Raise (HTTPError 429 h))
    (Hbad : forall s, ~ valid_retry_after h s) :
  exists e, retry_wrapper f = (Raise e, backoff_trace secs 0 n ++ [Call]) /\
            (retry_after_secs h = Raise e \/
             exists s, retry_after_secs h = Return s /\ time_sleep s = Raise e).
Proof.
  unfold retry_wrapper.
  rewrite (retry_loop_rate_limited f headers secs n 0 [] max_retries)
    by (try (intros; apply Hrl); lia).
  simpl (0 + n)%nat. simpl ([] ++ _).
  destruct (max_retries - n)%nat as [| k] eqn:Hk; [lia |].
  cbn [retry_loop].
  rewrite (proj2 (Nat.ltb_lt n max_retries) Hn), H429.
  cbn [is_rate_limited Z.eqb Pos.eqb].
  destruct (retry_after_secs h) as [s | e] eqn:Hs.
  - destruct (time_sleep s) as [[] | e] eqn:Ht.
    + exfalso. apply (Hbad s). split; [exact Hs | apply time_sleep_valid; exact Ht].
    + exists e. split; [reflexivity | right; exists s; auto].
  - exists e. split; [reflexivity | left; auto].
Qed.
End RW.

Section GO.
Import RetryWrapper GetOffers.

Lemma get_offers_loop_rate_limited {Offer : Type}
    (answer : nat -> response * ret (Offers.OF21Response Offer)) (secs : nat -> Z) :
  forall j rc fuel tr,
    (forall i, (rc <= i < rc + j)%nat ->
       status_code (fst (answer i)) = 429 /\
       valid_retry_after (retry_after_header (fst (answer i))) (secs i)) ->
    (rc + j <= max_retries)%nat ->
    (rc + fuel = max_retries)%nat ->
    get_offers_loop answer fuel rc tr
    = get_offers_loop answer (fuel - j) (rc + j) (tr ++ backoff_trace secs rc j).
Proof.
  induction j as [| j IH]; intros rc fuel tr Hf Hle Hfuel.
  - rewrite Nat.sub_0_r, Nat.add_0_r. unfold backoff_trace. simpl.
    rewrite app_nil_r. reflexivity.
  - destruct fuel as [| fuel]; [unfold max_retries in *; lia |].
    cbn [get_offers_loop].
    assert (Hlt : Nat.ltb rc max_retries = true)
      by (apply Nat.ltb_lt; unfold max_retries in *; lia).
    rewrite Hlt.
    destruct (Hf rc ltac:(lia)) as (Hs & Hsecs & Hbound).
    unfold PyM.bind at 1, PyM.emit at 1.
    destruct (answer rc) as [resp o] eqn:Ea. simpl in Hs, Hsecs.
    unfold response_ok. rewrite Hs.
    cbn -[get_offers_loop retry_after_secs time_sleep].
    rewrite Hsecs. cbn -[get_offers_loop time_sleep].
    rewrite (proj2 (time_sleep_valid (secs rc)) Hbound). cbn -[get_offers_loop].
    rewrite (IH (S rc)) by (intros; try apply Hf; lia).
    replace (S rc + j)%nat with (rc + S j)%nat by lia.
    simpl (S fuel - S j)%nat. f_equal.
    unfold backoff_trace. simpl seq. cbn [flat_map].
    rewrite <- !app_assoc. reflexivity.
Qed.

(** [get_offers] after [n < 10] answers with status 429 and valid
    [Retry-After] values (2 by default): if the next answer is ok, it
    returns the [OF21Response] built from it; if it is an error other than
    429, [raise_for_status] raises its [HTTPError] at once.  In both cases
    it sent [n + 1] GET requests and slept the [Retry-After] value after
    each 429. *)
Theorem get_offers_after_rate_limits {Offer : Type}
    (answer : nat -> response * ret (Offers.OF21Response Offer)) (secs : nat -> Z)
    (n : nat)
    (Hn : (n < max_retries)%nat)
    (Hrl : forall i, (i < n)%nat ->
       status_code (fst (answer i)) = 429 /\
       valid_retry_after (retry_after_header (fst (answer i))) (secs i)) :
  let trace := backoff_trace secs 0 n ++ [Call] in
  (response_ok (fst (answer n)) = true ->
   PyM.run (get_offers answer) = (snd (answer n), trace)) /\
  (response_ok (fst (answer n)) = false -> status_code (fst (answer n)) <> 429 ->
   PyM.run (get_offers answer)
   = (Raise (HTTPError (status_code (fst (answer n))) (retry_after_header (fst (answer n)))),
      trace)).
Proof.
  intros trace. unfold get_offers, PyM.run.
  rewrite (get_offers_loop_rate_limited answer secs n 0 max_retries [])
    by (try (intros; apply Hrl); lia).
  simpl (0 + n)%nat. simpl ([] ++ _).
  destruct (max_retries - n)%nat as [| k] eqn:Hk; [lia |].
  cbn [get_offers_loop].
  rewrite (proj2 (Nat.ltb_lt n max_retries) Hn).
  unfold PyM.bind at 1, PyM.emit at 1.
  destruct (answer n) as [resp o] eqn:Ea. cbn [fst snd]. split.
  - intros Hok. rewrite Hok. reflexivity.
  - intros Hnok H429. rewrite Hnok.
    rewrite (proj2 (Z.eqb_neq _ _) H429).
    unfold PyM.bind, PyM.lift, raise_for_status. rewrite Hnok. reflexivity.
Qed.

(** [get_offers] answered 10 times with status 429 and valid [Retry-After]
    values sends 10 GET requests, sleeps after each of them, and then
    raises [Exception("This code should be unreachable")]. *)
Theorem get_offers_exhausted {Offer : Type}
    (answer : nat -> response * ret (Offers.OF21Response Offer)) (secs : nat -> Z)
    (Hrl : forall i, (i < max_retries)%nat ->
       status_code (fst (answer i)) = 429 /\
       valid_retry_after (retry_after_header (fst (answer i))) (secs i)) :
  PyM.run (get_offers answer)
  = (Raise (Unreachable "This code should be unreachable"),
     backoff_trace secs 0 max_retries).
Proof.
  unfold get_offers, PyM.run.
  rewrite (get_offers_loop_rate_limited answer secs max_retries 0 max_retries [])
    by (try (intros; apply Hrl); lia).
  rewrite Nat.sub_diag. reflexivity.
Qed.
End GO.

Section GAO.
Import Offers.
Context {Offer : Type}.
Variable get_offers : Z -> Z -> ret (OF21Response Offer).
Variable pages : Z -> OF21Response Offer.
Hypothesis Hpages : forall offset, get_offers offset limit = Return (pages offset).

Lemma pages_arith (T : Z) (i : nat) :
  (Z.of_nat i < (T + 99) / 100 <-> 100 * Z.of_nat i < T).
Proof.
  pose proof (Z.div_mod (T + 99) 100 ltac:(lia)).
  pose proof (Z.mod_pos_bound (T + 99) 100 ltac:(lia)).
  lia.
Qed.

Lemma offers_loop_pages (T : Z) :
  forall k i fuel acc tr,
    (i + k = Z.to_nat ((T + 99) / 100))%nat -> (k <= fuel)%nat ->
    offers_loop get_offers fuel (100 * Z.of_nat i) T acc tr
    = (Return (acc ++ flat_map (fun j => offers (pages (100 * Z.of_nat j))) (seq (S i) k)),
       tr ++ map (fun j => GetOffers (100 * Z.of_nat j) 100) (seq (S i) k)).
Proof.
  pose proof (pages_arith T) as Ha.
  induction k as [| k IH]; intros i fuel acc tr Hk Hfuel.
  - simpl seq. cbn [flat_map map]. rewrite !app_nil_r.
    destruct fuel as [| fuel]; [reflexivity |].
    cbn [offers_loop].
    assert (Hge : (100 * Z.of_nat i <? T) = false).
    { apply Z.ltb_ge. specialize (Ha i). lia. }
    rewrite Hge. reflexivity.
  - destruct fuel as [| fuel]; [lia |].
    cbn [offers_loop].
    assert (Hlt : (100 * Z.of_nat i <? T) = true).
    { apply Z.ltb_lt. apply (Ha i). lia. }
    rewrite Hlt.
    unfold request_page, PyM.bind at 1 2, PyM.emit, PyM.lift.
    replace (100 * Z.of_nat i + limit) with (100 * Z.of_nat (S i))
      by (unfold limit; lia).
    rewrite Hpages.
    rewrite (IH (S i)) by lia.
    simpl seq. cbn [flat_map map].
    rewrite <- !app_assoc. reflexivity.
Qed.

(** [get_all_offers] over a server whose page at offset [o] is [pages o]:
    for the total count [T] of the first page, it requests the pages at
    offsets [0, 100, ..., 100 * N] with [N = ceil(T / 100)] (none but the
    first when [T <= 0]) and returns their offers concatenated in that
    order. *)
Theorem get_all_offers_pages :
  let N := Z.to_nat ((total_count (pages 0) + 99) / 100) in
  PyM.run (get_all_offers get_offers)
  = (Return (flat_map (fun i => offers (pages (100 * Z.of_nat i))) (seq 0 (S N))),
     map (fun i => GetOffers (100 * Z.of_nat i) 100) (seq 0 (S N))).
Proof.
  intros N. unfold get_all_offers, PyM.run, request_page, PyM.bind, PyM.emit, PyM.lift.
  rewrite Hpages. cbv zeta.
  set (T := total_count (pages 0)) in *.
  change 0 with (100 * Z.of_nat 0) at 3.
  rewrite (offers_loop_pages T N 0 (Z.to_nat T)) by
    (try reflexivity;
     pose proof (Z.div_mod (T + 99) 100 ltac:(lia));
     pose proof (Z.mod_pos_bound (T + 99) 100 ltac:(lia)); unfold N; lia).
  reflexivity.
Qed.
End GAO.

(** [ShippingCarrier.from_str] inverts [.value]: it maps the value of every
    carrier back to it, and maps every other string to [CUSTOM]. *)
Theorem carrier_from_str_value :
  (forall c, carrier_from_str (carrier_value c) = c) /\
  (forall s, carrier_from_str s = CUSTOM \/ carrier_value (carrier_from_str s) = s).
Proof.
  split.
  - intros []; reflexivity.
  - intros s. unfold carrier_from_str.
    destruct (String.eqb s "ups") eqn:E1; [apply String.eqb_eq in E1; subst; right; reflexivity |].
    destruct (String.eqb s "usps") eqn:E2; [apply String.eqb_eq in E2; subst; right; reflexivity |].
    destruct (String.eqb s "fedex") eqn:E3; [apply String.eqb_eq in E3; subst; right; reflexivity |].
    destruct (String.eqb s "dhl") eqn:E4; [apply String.eqb_eq in E4; subst; right; reflexivity |].
    left; reflexivity.
Qed.

Lemma string_app_assoc (a b c : string) : ((a ++ b) ++ c)%string = (a ++ b ++ c)%string.
Proof. induction a as [| x a IH]; simpl; [reflexivity | rewrite IH; reflexivity]. Qed.

Lemma prefix_app_iff (s1 s2 : string) :
  String.prefix s1 s2 = true <-> exists t, s2 = (s1 ++ t)%string.
Proof.
  revert s2; induction s1 as [| a s1 IH]; intros s2.
  - split; [intros _; exists s2; reflexivity | intros _; destruct s2; reflexivity].
  - destruct s2 as [| b s2]; cbn [String.prefix].
    + split; [discriminate | intros [t H]; discriminate].
    + destruct (Ascii.ascii_dec a b) as [<- | Hab].
      * rewrite IH. split; intros [t H]; exists t;
          [rewrite H; reflexivity | injection H as H; exact H].
      * split; [discriminate | intros [t H]; injection H as H1 _; congruence].
Qed.

Lemma index0_some_iff (s1 s2 : string) :
  String.index 0 s1 s2 <> None <-> exists pre post, s2 = (pre ++ s1 ++ post)%string.
Proof.
  induction s2 as [| b s2 IH].
  - cbn [String.index]. destruct s1 as [| a s1].
    + split; [intros _; exists EmptyString, EmptyString; reflexivity | discriminate].
    + split; [intros H; contradiction |].
      intros (pre & post & H). destruct pre; discriminate.
  - cbn [String.index].
    destruct (String.prefix s1 (String b s2)) eqn:Hp.
    + split; [intros _ | discriminate].
      apply prefix_app_iff in Hp as [t Ht]. exists EmptyString, t. exact Ht.
    + split.
      * intros H. destruct (String.index 0 s1 s2) eqn:Hi; [| contradiction].
        destruct (proj1 IH ltac:(congruence)) as (pre & post & Hs).
        exists (String b pre), post. rewrite Hs. reflexivity.
      * intros (pre & post & Hs). destruct pre as [| c pre].
        -- exfalso. assert (String.prefix s1 (String b s2) = true) as Hc
             by (apply prefix_app_iff; exists post; exact Hs). congruence.
        -- injection Hs as <- Hs.
           destruct (String.index 0 s1 s2) eqn:Hi; [discriminate |].
           exfalso. exact (proj2 IH (ex_intro _ pre (ex_intro _ post Hs)) eq_refl).
Qed.

Lemma current_status_match_iff (message : string) :
  current_status_match message = true
  <-> exists pre post, message = (pre ++ "Current status is" ++ post)%string.
Proof.
  rewrite <- index0_some_iff. unfold current_status_match.
  destruct (String.index 0 "Current status is" message);
    split; congruence.
Qed.

(** The undecorated [put_ship_confirmation] on an error response whose JSON
    ["message"] is a string: [PREVIOUSLY_CONFIRMED] when the message
    contains "Current status is", whatever the status code; otherwise the
    [HTTPError] of [raise_for_status]. *)
Theorem put_ship_confirmation_body_rejected (resp : response) (message : string)
    (Hnok : response_ok resp = false)
    (Hbody : body resp = BodyJsonObject (Some message)) :
  ((exists pre post, message = (pre ++ "Current status is" ++ post)%string) ->
   put_ship_confirmation_body resp = Return PREVIOUSLY_CONFIRMED) /\
  (~ (exists pre post, message = (pre ++ "Current status is" ++ post)%string) ->
   put_ship_confirmation_body resp
   = Raise (HTTPError (status_code resp) (retry_after_header resp))).
Proof.
  rewrite <- current_status_match_iff.
  unfold put_ship_confirmation_body. rewrite Hnok, Hbody.
  split.
  - intros ->. reflexivity.
  - intros H. destruct (current_status_match message); [contradiction H; reflexivity |].
    unfold raise_for_status. rewrite Hnok. reflexivity.
Qed.

Section SC.
Import RetryWrapper.
(** The decorated [put_ship_confirmation] answered 10 times with status 429,
    a valid [Retry-After] value and a message without "Current status is"
    sends the request 10 times, sleeps after each, and raises
    [Exception("Max retries exceeded")]. *)
Theorem put_ship_confirmation_rate_limited (server : nat -> response) (secs : nat -> Z)
    (Hs : forall i, (i < max_retries)%nat ->
          status_code (server i) = 429 /\
          valid_retry_after (retry_after_header (server i)) (secs i) /\
          exists message, body (server i) = BodyJsonObject (Some message) /\
          ~ (exists pre post, message = (pre ++ "Current status is" ++ post)%string)) :
  put_ship_confirmation server
  = (Raise MaxRetriesExceeded,
     backoff_trace secs 0 max_retries).
Proof.
  unfold put_ship_confirmation, retry_wrapper.
  rewrite (retry_loop_rate_limited (fun n => put_ship_confirmation_body (server n))
             (fun i => retry_after_header (server i)) secs max_retries 0 [] max_retries);
    try lia.
  - rewrite Nat.sub_diag. reflexivity.
  - intros i Hi. destruct (Hs i ltac:(lia)) as (H429 & Hv & message & Hb & Hm).
    split; [| exact Hv].
    rewrite <- current_status_match_iff in Hm.
    unfold put_ship_confirmation_body, raise_for_status, response_ok.
    rewrite H429, Hb. cbn -[current_status_match].
    destruct (current_status_match message); [contradiction Hm; reflexivity | reflexivity].
Qed.
End SC.

Section PT.
Import RetryWrapper.

(** [put_tracking] for a carrier that has a configuration builds the
    carrier-code payload, which [validate_for_mirakl] rejects: it raises
    [ValueError] before any request, and the decorated method raises it
    after a single invocation. *)
Theorem put_tracking_configured_carrier_rejected (self : MiraklClient) (order_id : order_id_t)
    (tracking_number : string) (c : ShippingCarrier) (cfg : CarrierConfig)
    (resp : response) (server : nat -> response)
    (Hcfg : lookup_config (carrier_configurations self) c = Some cfg) :
  exists msg,
    PyM.run (put_tracking_body self order_id tracking_number (Some c) resp)
    = (Raise (ValueError msg), []) /\
    put_tracking self order_id tracking_number (Some c) server
    = (Raise (ValueError msg), [Call]).
Proof.
  eexists. unfold put_tracking, retry_wrapper, put_tracking_body.
  cbn [retry_loop]. unfold PyM.run, PyM.bind, PyM.pure, PyM.lift.
  rewrite Hcfg. split; reflexivity.
Qed.

(** Every PUT request that [put_tracking] sends goes to
    [{base_url}/api/orders/{order_id}/tracking] with a payload without
    carrier code, with the tracking number, the [value] of an unconfigured
    carrier as carrier name, and the URL generated for it, accepted by the
    URL check, as carrier URL. *)
Theorem put_tracking_put_payload (self : MiraklClient) (order_id : order_id_t)
    (tn : string) (carrier : option ShippingCarrier) (resp : response)
    (url : string) (payload : OR23RequestBody)
    (Hin : In (Put url payload)
              (snd (PyM.run (put_tracking_body self order_id tn carrier resp)))) :
  url = (base_url self ++ "/api/orders/" ++ py_str_order_id order_id ++ "/tracking")%string /\
  carrier_code payload = None /\ Shipping.tracking_number payload = tn /\
  exists c u,
    carrier_name payload = Some (carrier_value c) /\ carrier_url payload = Some u /\
    lookup_config (carrier_configurations self) c = None /\
    tracking_url_generation_func self c tn = Return u /\
    url_validator self u = true.
Proof.
  unfold put_tracking_body, PyM.run, PyM.bind, PyM.pure, PyM.lift, PyM.emit in Hin.
  destruct carrier as [c |];
    [| destruct (carrier_determination_func self tn (Some tn)) as [c | e] eqn:Hdet;
       [| simpl in Hin; destruct Hin as [H | []]; discriminate]];
    (destruct (lookup_config (carrier_configurations self) c) as [cfg |] eqn:Hcfg;
     [simpl in Hin; repeat (destruct Hin as [Hin | Hin]; [discriminate |]); contradiction |]);
    (destruct (tracking_url_generation_func self c tn) as [u |] eqn:Hgen;
     [| simpl in Hin; repeat (destruct Hin as [Hin | Hin]; [discriminate |]); contradiction]);
    unfold validate_for_mirakl in Hin; cbn [carrier_code carrier_name carrier_url is_None andb orb] in Hin;
    (destruct (url_validator self u) eqn:Hval;
     [| simpl in Hin; repeat (destruct Hin as [Hin | Hin]; [discriminate |]); contradiction]);
    simpl in Hin; repeat (destruct Hin as [Hin | Hin]; [try discriminate |]);
    try contradiction;
    injection Hin as <- <-; repeat split; exists c, u; repeat split; assumption.
Qed.

(** A client with the default functions, called without a carrier, always
    raises ([CarrierNotFound], [NotImplementedError] for a UPS number
    without configuration, [ValueError] with one) and never sends its PUT
    request. *)
Theorem put_tracking_default_client_without_carrier (url : string)
    (configs : list CarrierConfig) (order_id : order_id_t) (tn : string) (resp : response) :
  (exists e, fst (PyM.run (put_tracking_body (default_client url configs) order_id tn None resp))
             = Raise e) /\
  (forall put_url payload,
      ~ In (Put put_url payload)
          (snd (PyM.run (put_tracking_body (default_client url configs) order_id tn None resp)))).
Proof.
  unfold put_tracking_body, PyM.run, PyM.bind, PyM.pure, PyM.lift, PyM.emit, default_client.
  cbn [carrier_determination_func carrier_configurations tracking_url_generation_func url_validator].
  unfold determine_carrier.
  destruct (String.prefix "1Z" tn).
  - destruct (lookup_config configs UPS) as [cfg |].
    + unfold validate_for_mirakl. cbn [carrier_code carrier_name carrier_url is_None andb orb].
      split; [eexists; reflexivity |].
      intros put_url payload Hin. simpl in Hin.
      repeat (destruct Hin as [Hin | Hin]; [discriminate |]); contradiction.
    + cbn [generate_custom_tracking_url].
      split; [eexists; reflexivity |].
      intros put_url payload Hin. simpl in Hin.
      repeat (destruct Hin as [Hin | Hin]; [discriminate |]); contradiction.
  - split; [eexists; reflexivity |].
    intros put_url payload Hin. simpl in Hin.
    repeat (destruct Hin as [Hin | Hin]; [discriminate |]); contradiction.
Qed.

(** [put_tracking] for an unconfigured carrier whose generated URL passes the
    URL check: one invocation of its body sends exactly one PUT, with the
    name+URL payload, and its outcome is that of [raise_for_status] on the
    response.  The decorated method thus returns [None] after that single
    invocation when the first response is ok, and raises its [HTTPError]
    without a retry when it is an error other than 429. *)
Theorem put_tracking_sends_put (self : MiraklClient) (order_id : order_id_t)
    (tn : string) (c : ShippingCarrier) (u : string) (server : nat -> response)
    (Hcfg : lookup_config (carrier_configurations self) c = None)
    (Hgen : tracking_url_generation_func self c tn = Return u)
    (Hval : url_validator self u = true) :
  (forall resp,
     PyM.run (put_tracking_body self order_id tn (Some c) resp)
     = (raise_for_status resp,
        [GenerateTrackingUrl c tn;
         Put (base_url self ++ "/api/orders/" ++ py_str_order_id order_id ++ "/tracking")%string
             (mk_OR23 None (Some (carrier_value c)) (Some u) tn)])) /\
  (response_ok (server 0%nat) = true ->
     put_tracking self order_id tn (Some c) server = (Return None, [RetryWrapper.Call])) /\
  (response_ok (server 0%nat) = false -> status_code (server 0%nat) <> 429 ->
     put_tracking self order_id tn (Some c) server
     = (Raise (HTTPError (status_code (server 0%nat)) (retry_after_header (server 0%nat))),
        [RetryWrapper.Call])).
Proof.
  assert (Hbody : forall resp,
     PyM.run (put_tracking_body self order_id tn (Some c) resp)
     = (raise_for_status resp,
        [GenerateTrackingUrl c tn;
         Put (base_url self ++ "/api/orders/" ++ py_str_order_id order_id ++ "/tracking")%string
             (mk_OR23 None (Some (carrier_value c)) (Some u) tn)])).
  { intros resp.
    unfold put_tracking_body, PyM.run, PyM.bind, PyM.pure, PyM.lift, PyM.emit.
    rewrite Hcfg, Hgen. unfold validate_for_mirakl.
    cbn [carrier_code carrier_name carrier_url is_None andb orb].
    rewrite Hval. reflexivity. }
  assert (H0 : fst (PyM.run (put_tracking_body self order_id tn (Some c) (server 0%nat)))
               = raise_for_status (server 0%nat)) by (rewrite Hbody; reflexivity).
  split; [exact Hbody | split].
  - intros Hok. unfold put_tracking, RetryWrapper.retry_wrapper.
    cbn [RetryWrapper.retry_loop RetryWrapper.max_retries]. rewrite H0.
    unfold raise_for_status. rewrite Hok. reflexivity.
  - intros Hnok H429. unfold put_tracking, RetryWrapper.retry_wrapper.
    cbn [RetryWrapper.retry_loop RetryWrapper.max_retries]. rewrite H0.
    unfold raise_for_status. rewrite Hnok. cbn [is_rate_limited].
    rewrite (proj2 (Z.eqb_neq _ _) H429). reflexivity.
Qed.

End PT.

Section OrdersProofs.
Import Orders.

(** [get_orders] joins the order ids with commas without escaping: the id
    ["x,y"] gives the same request, and the same result, as the two ids
    ["x"] and ["y"]. *)
Theorem get_orders_order_ids_comma_ambiguous {Order : Type} (base_url : string)
    (offset size : Z) (status : option string) (x y : string) (rest : list string)
    (resp : response) (decoded : ret (list Order * Z)) :
  get_orders base_url offset size status ((x ++ "," ++ y)%string :: rest) resp decoded
  = get_orders base_url offset size status (x :: y :: rest) resp decoded.
Proof.
  unfold get_orders, get_orders_params.
  replace (String.concat "," ((x ++ "," ++ y)%string :: rest))
    with (String.concat "," (x :: y :: rest)); [reflexivity |].
  destruct rest as [| z rest]; [reflexivity |].
  cbn [String.concat]. rewrite !string_app_assoc. reflexivity.
Qed.

(** On a 4xx or 5xx response, [get_orders] and [accept_order] raise the
    [HTTPError] carrying the status code after their single request;
    [get_orders] does not read the body then. *)
Theorem get_orders_accept_order_http_error {Order : Type} (base_url : string)
    (offset size : Z) (status : option string) (order_ids : list string)
    (decoded : ret (list Order * Z)) (order_id : string) (order_line_ids : list string)
    (resp : response) (Hnok : response_ok resp = false) :
  PyM.run (get_orders base_url offset size status order_ids resp decoded)
  = (Raise (HTTPError (status_code resp) (retry_after_header resp)),
     [Get (base_url ++ "/api/orders")%string
          (params_str (get_orders_params offset size status order_ids))]) /\
  PyM.run (accept_order base_url order_id order_line_ids resp)
  = (Raise (HTTPError (status_code resp) (retry_after_header resp)),
     [PutAccept (base_url ++ "/api/orders/" ++ order_id ++ "/accept")%string
                (map (fun id => (true, id)) order_line_ids)]).
Proof.
  unfold get_orders, accept_order, PyM.run, PyM.bind, PyM.emit, PyM.lift, raise_for_status.
  rewrite Hnok. split; reflexivity.
Qed.
End OrdersProofs.

Section ProviderProofs.
Import Provider.

Lemma find_filter_irrelevant {T : Type} (f g : T -> bool) (l : list T) :
  (forall x, f x = true -> g x = true) -> find f (filter g l) = find f l.
Proof.
  intros H. induction l as [| x l IH]; [reflexivity |].
  cbn [filter find]. destruct (g x) eqn:Hg; cbn [find].
  - rewrite IH. reflexivity.
  - destruct (f x) eqn:Hf; [rewrite (H x Hf) in Hg; discriminate | exact IH].
Qed.

Lemma dict_get_set {V : Type} (k k' : string) (v : V) (d : dict V) :
  dict_get k' (dict_set k v d) = if String.eqb k k' then Some v else dict_get k' d.
Proof.
  unfold dict_get, dict_set. cbn [find fst].
  destruct (String.eqb k k') eqn:E; [reflexivity |].
  rewrite find_filter_irrelevant; [reflexivity |].
  intros [k0 v0] H. cbn [fst] in *. apply String.eqb_eq in H. subst k0.
  rewrite String.eqb_sym, E. reflexivity.
Qed.

Lemma configure_client_eq configured_carriers_config custom_tracking_url_generation_config
    custom_carrier_determination_config marketplace config :
  configure_client configured_carriers_config custom_tracking_url_generation_config
    custom_carrier_determination_config marketplace config
  = mk_ClientEntry marketplace (mc_api_key config)
      (mk_client (mc_base_url config)
         (match dict_get marketplace configured_carriers_config with Some l => l | None => [] end)
         (match dict_get marketplace custom_tracking_url_generation_config with
          | Some f => f | None => generate_custom_tracking_url end)
         (match dict_get marketplace custom_carrier_determination_config with
          | Some f => f | None => determine_carrier end)
         validators_url).
Proof.
  unfold configure_client, new_client, default_client.
  destruct (dict_get marketplace custom_tracking_url_generation_config);
    destruct (dict_get marketplace custom_carrier_determination_config); reflexivity.
Qed.

Lemma init_loop_clients mc cc tc dc :
  forall names clients clients', init_loop mc cc tc dc names clients = ProviderOk clients' ->
  forall m, dict_get m clients'
            = if existsb (String.eqb m) names
              then option_map (configure_client cc tc dc m) (dict_get m mc)
              else dict_get m clients.
Proof.
  induction names as [| x names IH]; intros clients clients' H m; cbn [init_loop] in H.
  - injection H as <-. reflexivity.
  - destruct (dict_get x mc) as [config |] eqn:Hx; [| discriminate].
    rewrite (IH _ _ H m). cbn [existsb].
    rewrite dict_get_set.
    destruct (String.eqb m x) eqn:Emx.
    + apply String.eqb_eq in Emx. subst x. rewrite String.eqb_refl, Hx.
      destruct (existsb (String.eqb m) names); reflexivity.
    + rewrite String.eqb_sym, Emx. reflexivity.
Qed.

(** After a successful [MiraklClientProvider(...)], [get_client(m)] is
    [None] for a marketplace not listed, and otherwise the client built from
    [marketplace_config[m]] with the carrier configurations of [m] (default
    [[]]) and the custom tracking URL and carrier determination functions of
    [m] when given, the default ones otherwise. *)
Theorem provider_get_client mc cc tc dc (marketplace_names : list string)
    (clients : dict ClientEntry)
    (Hinit : provider_init mc cc tc dc marketplace_names = ProviderOk clients)
    (marketplace : string) :
  get_client clients marketplace
  = if existsb (String.eqb marketplace) marketplace_names
    then option_map
           (fun config =>
              mk_ClientEntry marketplace (mc_api_key config)
                (mk_client (mc_base_url config)
                   (match dict_get marketplace cc with Some l => l | None => [] end)
                   (match dict_get marketplace tc with
                    | Some f => f | None => generate_custom_tracking_url end)
                   (match dict_get marketplace dc with
                    | Some f => f | None => determine_carrier end)
                   validators_url))
           (dict_get marketplace mc)
    else None.
Proof.
  unfold get_client. rewrite (init_loop_clients mc cc tc dc marketplace_names [] clients Hinit).
  destruct (existsb (String.eqb marketplace) marketplace_names); [| reflexivity].
  destruct (dict_get marketplace mc); [| reflexivity].
  cbn [option_map]. rewrite configure_client_eq. reflexivity.
Qed.

Lemma init_loop_key_error mc cc tc dc (m : string) :
  forall names clients,
    init_loop mc cc tc dc names clients = ProviderKeyError m
    <-> exists pre post, names = pre ++ m :: post /\ dict_get m mc = None /\
                         Forall (fun x => dict_get x mc <> None) pre.
Proof.
  induction names as [| x names IH]; intros clients; cbn [init_loop].
  - split; [discriminate |]. intros (pre & post & H & _). destruct pre; discriminate.
  - destruct (dict_get x mc) as [config |] eqn:Hx.
    + rewrite IH. split.
      * intros (pre & post & -> & Hm & Hpre). exists (x :: pre), post.
        repeat split; [exact Hm |]. constructor; [congruence | exact Hpre].
      * intros (pre & post & Hn & Hm & Hpre). destruct pre as [| y pre].
        -- injection Hn as -> _. congruence.
        -- injection Hn as -> Hn. inversion Hpre; subst.
           exists pre, post. repeat split; assumption.
    + split.
      * intros H. injection H as <-. exists [], names. repeat split; [exact Hx | constructor].
      * intros (pre & post & Hn & Hm & Hpre). destruct pre as [| y pre].
        -- injection Hn as -> _. reflexivity.
        -- injection Hn as -> Hn. inversion Hpre; subst. contradiction.
Qed.

Lemma init_loop_ok_iff mc cc tc dc :
  forall names clients,
    (exists clients', init_loop mc cc tc dc names clients = ProviderOk clients')
    <-> Forall (fun x => dict_get x mc <> None) names.
Proof.
  induction names as [| x names IH]; intros clients; cbn [init_loop].
  - split; [constructor | intros _; eexists; reflexivity].
  - destruct (dict_get x mc) as [config |] eqn:Hx.
    + rewrite IH. split; [intros H; constructor; [congruence | exact H] |
                          intros H; inversion H; assumption].
    + split; [intros [c' H]; discriminate | intros H; inversion H; contradiction].
Qed.

(** [MiraklClientProvider(...)] raises [KeyError] for the first listed
    marketplace without an entry in [marketplace_config], and succeeds exactly
    when every listed marketplace has one. *)
Theorem provider_init_key_error mc cc tc dc (marketplace_names : list string) :
  (forall m, provider_init mc cc tc dc marketplace_names = ProviderKeyError m
   <-> exists pre post, marketplace_names = pre ++ m :: post /\ dict_get m mc = None /\
                        Forall (fun x => dict_get x mc <> None) pre) /\
  ((exists clients, provider_init mc cc tc dc marketplace_names = ProviderOk clients)
   <-> Forall (fun x => dict_get x mc <> None) marketplace_names).
Proof.
  unfold provider_init. split.
  - intros m. apply init_loop_key_error.
  - apply init_loop_ok_iff.
Qed.
End ProviderProofs.

Lemma charm_ok_below_10000 : forallb charm_ok (map Z.of_nat (seq 0 (Z.to_nat 10000))) = true.
Proof. vm_compute. reflexivity. Qed.

(** For every two-decimal price [k / 100] below 100,
    [round_up_to_nearest_nine] returns a float at least the price that
    rounds, with [round(_, 2)], to the price [(k - k % 10 + 9) / 100] whose
    cents digit is 9. *)
Theorem round_up_to_nearest_nine_two_decimal_prices (k : Z) (Hk : 0 <= k < 10000) :
  exists y, round_up_to_nearest_nine (cents_price k) = Return y /\
            PrimFloat.leb (cents_price k) y = true /\
            PrimFloat.eqb (PyFloat.py_round2 y) (cents_price (k - k mod 10 + 9)) = true.
Proof.
  assert (Hc : charm_ok k = true).
  { apply (proj1 (forallb_forall charm_ok _) charm_ok_below_10000).
    apply in_map_iff. exists (Z.to_nat k). split; [lia |].
    apply in_seq. lia. }
  unfold charm_ok in Hc.
  destruct (round_up_to_nearest_nine (cents_price k)) as [y |]; [| discriminate].
  apply andb_prop in Hc as [H1 H2]. exists y. auto.
Qed.


Lemma retry_wrapper_invalid_retry_after_witness :
  exists e,
    RetryWrapper.retry_wrapper negative_retry_after
    = (Raise e, RetryWrapper.backoff_trace (fun _ => 0) 0 0 ++ [RetryWrapper.Call]) /\
    (RetryWrapper.retry_after_secs (Some (RetryAfterInt (-1))) = Raise e \/
     exists s, RetryWrapper.retry_after_secs (Some (RetryAfterInt (-1))) = Return s /\
               RetryWrapper.time_sleep s = Raise e).
Proof.
  apply (retry_wrapper_invalid_retry_after negative_retry_after (fun _ => None) (fun _ => 0)
           0 (Some (RetryAfterInt (-1)))).
  - vm_compute. lia.
  - intros i Hi. lia.
  - reflexivity.
  - intros s [Hs Hb]. inversion Hs. lia.
Defined.

Lemma get_offers_after_rate_limits_witness :
  PyM.run (GetOffers.get_offers offers_answers)
  = (Return (Offers.mk_OF21Response [1; 2] 2),
     RetryWrapper.backoff_trace (fun _ => 3) 0 2 ++ [RetryWrapper.Call]).
Proof.
  apply (proj1 (get_offers_after_rate_limits offers_answers (fun _ => 3) 2
                  ltac:(vm_compute; lia)
                  (fun i Hi => ltac:(unfold offers_answers;
                                     rewrite (proj2 (Nat.ltb_lt i 2) Hi);
                                     split; [reflexivity |];
                                     split; [reflexivity | unfold RetryWrapper.sleep_limit; lia])))).
  reflexivity.
Defined.

Lemma get_offers_exhausted_witness :
  PyM.run (GetOffers.get_offers (Offer := Z) (fun _ => (rate_limit_response, Raise JSONDecodeError)))
  = (Raise (Unreachable "This code should be unreachable"),
     RetryWrapper.backoff_trace (fun _ => 3) 0 RetryWrapper.max_retries).
Proof.
  apply (get_offers_exhausted (fun _ => (rate_limit_response, Raise JSONDecodeError)) (fun _ => 3)).
  intros; split; [reflexivity |].
  split; [reflexivity | unfold RetryWrapper.sleep_limit; lia].
Defined.

Lemma get_all_offers_pages_witness :
  PyM.run (Offers.get_all_offers (slice_source 250))
  = (Return (flat_map (fun i => Offers.offers (slice_page 250 (100 * Z.of_nat i))) (seq 0 4)),
     map (fun i => Offers.GetOffers (100 * Z.of_nat i) 100) (seq 0 4)).
Proof.
  apply (get_all_offers_pages (slice_source 250) (slice_page 250)).
  intros; reflexivity.
Defined.

Lemma put_ship_confirmation_body_rejected_witness :
  put_ship_confirmation_body (rejected_response "Cannot ship order. Current status is SHIPPED")
  = Return PREVIOUSLY_CONFIRMED.
Proof.
  apply (proj1 (put_ship_confirmation_body_rejected
                  (rejected_response "Cannot ship order. Current status is SHIPPED")
                  "Cannot ship order. Current status is SHIPPED" eq_refl eq_refl)).
  exists "Cannot ship order. "%string, " SHIPPED"%string. reflexivity.
Defined.

Lemma put_ship_confirmation_rate_limited_witness :
  put_ship_confirmation (fun _ => rate_limit_response)
  = (Raise MaxRetriesExceeded,
     RetryWrapper.backoff_trace (fun _ => 3) 0 RetryWrapper.max_retries).
Proof.
  apply (put_ship_confirmation_rate_limited (fun _ => rate_limit_response) (fun _ => 3)).
  intros i _. split; [reflexivity |].
  split; [split; [reflexivity | unfold RetryWrapper.sleep_limit; lia] |].
  exists "Too many requests"%string. split; [reflexivity |].
  rewrite <- current_status_match_iff. vm_compute. discriminate.
Defined.

Lemma put_tracking_configured_carrier_rejected_witness :
  exists msg,
    PyM.run (put_tracking_body sample_client (OrderIdStr "A-1") "1Z999AA10123456784"
               (Some UPS) ok_page_response)
    = (Raise (ValueError msg), []) /\
    put_tracking sample_client (OrderIdStr "A-1") "1Z999AA10123456784" (Some UPS)
      (fun _ => ok_page_response)
    = (Raise (ValueError msg), [RetryWrapper.Call]).
Proof.
  apply (put_tracking_configured_carrier_rejected sample_client (OrderIdStr "A-1")
           "1Z999AA10123456784" UPS (mk_CarrierConfig UPS "ups-code")).
  reflexivity.
Defined.

Lemma put_tracking_sends_put_witness :
  PyM.run (put_tracking_body sample_client (OrderIdInt 42) "JD014600006281230704"
             (Some DHL) ok_page_response)
  = (Return tt,
     [GenerateTrackingUrl DHL "JD014600006281230704";
      Put "https://marketplace.example/api/orders/42/tracking"
          (mk_OR23 None (Some "dhl"%string)
             (Some "https://www.dhl.com/us-en/home/tracking.html?tracking-id=JD014600006281230704"%string)
             "JD014600006281230704")]) /\
  put_tracking sample_client (OrderIdInt 42) "JD014600006281230704" (Some DHL)
    (fun _ => ok_page_response)
  = (Return None, [RetryWrapper.Call]).
Proof.
  destruct (put_tracking_sends_put sample_client (OrderIdInt 42) "JD014600006281230704" DHL
              "https://www.dhl.com/us-en/home/tracking.html?tracking-id=JD014600006281230704"
              (fun _ => ok_page_response)
              ltac:(vm_compute; reflexivity) ltac:(vm_compute; reflexivity)
              ltac:(vm_compute; reflexivity)) as [Hbody [Hok _]].
  split; [apply Hbody | apply Hok; reflexivity].
Defined.

Lemma put_tracking_put_payload_witness :
  carrier_code (mk_OR23 None (Some "dhl"%string)
             (Some "https://www.dhl.com/us-en/home/tracking.html?tracking-id=JD014600006281230704"%string)
             "JD014600006281230704") = None.
Proof.
  exact (proj1 (proj2 (put_tracking_put_payload sample_client (OrderIdInt 42)
           "JD014600006281230704" (Some DHL) ok_page_response
           "https://marketplace.example/api/orders/42/tracking"
           (mk_OR23 None (Some "dhl"%string)
              (Some "https://www.dhl.com/us-en/home/tracking.html?tracking-id=JD014600006281230704"%string)
              "JD014600006281230704")
           ltac:(vm_compute; right; left; reflexivity)))).
Defined.

Lemma get_orders_accept_order_http_error_witness :
  PyM.run (Orders.accept_order "https://marketplace.example" "A-1" ["L1"%string; "L2"%string]
             (rejected_response "Forbidden"))
  = (Raise (HTTPError 400 None),
     [Orders.PutAccept "https://marketplace.example/api/orders/A-1/accept"
        [(true, "L1"%string); (true, "L2"%string)]]).
Proof.
  apply (proj2 (get_orders_accept_order_http_error (Order := Z) "https://marketplace.example"
                  0 100 None [] (Return ([], 0)) "A-1" ["L1"%string; "L2"%string]
                  (rejected_response "Forbidden") eq_refl)).
Defined.

Lemma provider_get_client_witness :
  Provider.get_client
    (match Provider.provider_init sample_marketplace_config [] [] [] ["acme"%string] with
     | Provider.ProviderOk clients => clients
     | Provider.ProviderKeyError _ => []
     end) "acme"
  = Some (Provider.mk_ClientEntry "acme" "acme-key"
            (mk_client "https://acme.example" [] generate_custom_tracking_url
               determine_carrier validators_url)).
Proof.
  rewrite (provider_get_client sample_marketplace_config [] [] [] ["acme"%string] _ eq_refl).
  reflexivity.
Defined.

Lemma round_up_to_nearest_nine_two_decimal_prices_witness :
  exists y, round_up_to_nearest_nine (cents_price 35) = Return y /\
            PrimFloat.leb (cents_price 35) y = true /\
            PrimFloat.eqb (PyFloat.py_round2 y) (cents_price 39) = true.
Proof.
  apply (round_up_to_nearest_nine_two_decimal_prices 35). lia.
Defined.
